(** * django-rest-polymorphic: the polymorphic dispatcher and its form adapter

    A shallow embedding of [rest_polymorphic/renderers.py]
    ([PolymorphicRenderer]) together with the part of the polymorphic
    serializer the renderer talks to.  Python objects are split in two:
    what is fixed when an object is built (its registry, its discriminator
    field name, whether raw input data was passed) is a field of a Rocq
    record; everything the host framework mutates behind a method call
    lives in an abstract [world] that every call threads through. *)

From stdpp Require Import gmap strings list fin_maps.

Set Warnings "-register-all".

(** ** Python values *)

(** The values that reach the code under study: the rendered forms
    (strings), the tuple returned for an unbound dispatcher, the entries of
    a template context and of a serialized record.  [VObject] stands for a
    host object the code only passes along (a view, a request, ...). *)
Inductive value :=
| VNone
| VBool (b : bool)
| VInt (n : Z)
| VStr (s : string)
| VTuple (items : list value)
| VObject (id : nat).

(** [isinstance(v, tuple)] *)
Definition isinstance_tuple (v : value) : bool :=
  match v with VTuple _ => true | _ => false end.

(** [isinstance(v, str)] *)
Definition isinstance_str (v : value) : bool :=
  match v with VStr _ => true | _ => false end.

(** A rendered form is a string of markup. *)
Definition html := string.

(** A dict with string keys: a serialized record, a payload, a template
    context.  Truthiness of a dict is [len(d) != 0]. *)
Abbreviation record := (gmap string value).

Definition truthy_dict {V} (d : gmap string V) : bool := negb (Nat.eqb (size d) 0).

(** ** Exceptions and results *)

Inductive message :=
| Required
| NoMatchingHandler (v : value)
| Message (text : string).

Inductive exn :=
| ImproperlyConfigured (msg : string)
| ValidationError (detail : gmap string (list message))
| KeyError (key : string)
| HostError (msg : string).

Inductive result (A : Type) :=
| Ok (a : A)
| Raise (e : exn).
Arguments Ok {A} a.
Arguments Raise {A} e.

Definition is_ok {A} (r : result A) : bool :=
  match r with Ok _ => true | Raise _ => false end.

(** ** Calls into the host framework

    A method call may mutate any object and may raise; a raised exception
    leaves the mutations done so far in place. *)
Definition M (world A : Type) : Type := world → result A * world.

Global Instance M_ret {world} : MRet (M world) := λ A a w, (Ok a, w).

Global Instance M_bind {world} : MBind (M world) := λ A B f m w,
  match m w with
  | (Ok a, w') => f a w'
  | (Raise e, w') => (Raise e, w')
  end.

Global Instance M_fmap {world} : FMap (M world) := λ A B f m,
  a ← m; mret (f a).

(** A computation that does not touch the world. *)
Definition lift {world A} (r : result A) : M world A := λ w, (r, w).

(** ** Classes and serializer objects *)

(** A model class: its [__name__] and the names of its proper ancestors,
    nearest first (the tail of its method resolution order). *)
Record model := Model {
  __name__ : string;
  bases : list string;
}.

(** An attribute looked up on an object: absent, set to [None], or set. *)
Inductive attribute (A : Type) :=
| Missing
| NoneValue
| Value (a : A).
Arguments Missing {A}.
Arguments NoneValue {A}.
Arguments Value {A} a.

(** [getattr(obj, name, None)] *)
Definition getattr_or_none {A} (a : attribute A) : option A :=
  match a with Value x => Some x | _ => None end.

(** [hasattr(obj, name)] *)
Definition hasattr {A} (a : attribute A) : bool :=
  match a with Missing => false | _ => true end.

(** A serializer object.  [oid] is its identity: the state the framework
    keeps for it (validated data, errors, cached output) is found in the
    world under that identity.  The registry is a dict from model class to
    handler; its [items()] come in insertion order, so it is kept as the
    list of its items.  The discriminator field name is only read on
    dispatchers. *)
Inductive serializer := Serializer {
  oid : nat;
  model_serializer_mapping : attribute (list (model * serializer));
  initial_data : attribute record;
  resource_type_field_name : string;
}.

Abbreviation registry := (list (model * serializer)).

(** Truthiness of what [getattr(serializer, 'model_serializer_mapping',
    None)] returns: [None] and the empty dict are false. *)
Definition truthy_mapping (mapping : option registry) : bool :=
  match mapping with
  | None => false
  | Some items => negb (Nat.eqb (length items) 0)
  end.

(** [mapping.items()], once [mapping] is known to be a dict. *)
Definition mapping_items (mapping : option registry) : registry :=
  default [] mapping.

(** The registry of a dispatcher, as its methods see it. *)
Definition registry_of (self : serializer) : registry :=
  mapping_items (getattr_or_none (model_serializer_mapping self)).

(** ** The polymorphic dispatcher *)

Module Serializers.

(** The first handler registered under a subtype name. *)
Fixpoint lookup_handler (name : string) (items : registry) : option (model * serializer) :=
  match items with
  | [] => None
  | (m, h) :: rest =>
      if String.eqb (__name__ m) name then Some (m, h) else lookup_handler name rest
  end.

(** Whether a discriminator value is a key of the registry. *)
Definition is_registry_key (self : serializer) (resource_type : value) : bool :=
  match resource_type with
  | VStr name => bool_decide (is_Some (lookup_handler name (registry_of self)))
  | _ => false
  end.

(** Whether a record carries a discriminator value that is a key of the
    registry. *)
Definition discriminator_resolves (self : serializer) (mapping : record) : bool :=
  match mapping !! resource_type_field_name self with
  | Some resource_type => is_registry_key self resource_type
  | None => false
  end.

(** The message a record that does not resolve is answered with. *)
Definition discriminator_message (self : serializer) (mapping : record) : message :=
  match mapping !! resource_type_field_name self with
  | Some resource_type => NoMatchingHandler resource_type
  | None => Required
  end.

(** Modelled from the spec: [rest_polymorphic/serializers.py] is not among
    the sources.  Reads the discriminator value of a record; a record
    without the discriminator field fails with a validation error that
    attributes "required" to that field. *)
Definition _get_resource_type_from_mapping (self : serializer) (mapping : record) : result value :=
  match mapping !! resource_type_field_name self with
  | Some resource_type => Ok resource_type
  | None => Raise (ValidationError {[ resource_type_field_name self := [Required] ]})
  end.

(** Modelled from the spec: [rest_polymorphic/serializers.py] is not among
    the sources.  Selects the handler registered for a discriminator value;
    a value that is not a key of the registry fails with a validation error
    attributed to the discriminator field. *)
Definition _get_serializer_from_resource_type (self : serializer) (resource_type : value) : result serializer :=
  let no_match :=
    Raise (ValidationError {[ resource_type_field_name self := [NoMatchingHandler resource_type] ]}) in
  match resource_type with
  | VStr name =>
      match lookup_handler name (registry_of self) with
      | Some (_, handler) => Ok handler
      | None => no_match
      end
  | _ => no_match
  end.

(** *** Construction *)

(** A dispatcher class definition: its name and its two class-level
    settings.  A setting that the class does not override is [Missing]. *)
Record serializer_class := SerializerClass {
  cls_name : string;
  cls_model_serializer_mapping : attribute registry;
  cls_resource_type_field_name : attribute value;
}.

Definition default_resource_type_field_name : string := "resourcetype".

(** The two configuration error messages, as the test-suite pins them. *)
Definition missing_mapping_message (cls : string) : string :=
  "`" +:+ cls +:+ "` is missing a `" +:+ cls +:+ ".model_serializer_mapping` attribute".

Definition field_name_not_string_message (cls : string) : string :=
  "`" +:+ cls +:+ ".resource_type_field_name` must be a string".

(** Modelled from the spec: [rest_polymorphic/serializers.py] is not among
    the sources.  Construction fails with a configuration error if the
    registry is absent or empty, or if the discriminator field name is not
    a string; the name defaults to "resourcetype".  [oid] and [initial] are
    the identity of the new object and the raw input handed to it. *)
Definition construct (cls : serializer_class) (oid : nat) (initial : attribute record) : result serializer :=
  let mapping := getattr_or_none (cls_model_serializer_mapping cls) in
  if negb (truthy_mapping mapping) then
    Raise (ImproperlyConfigured (missing_mapping_message (cls_name cls)))
  else
    match cls_resource_type_field_name cls with
    | Missing =>
        Ok (Serializer oid (Value (mapping_items mapping)) initial default_resource_type_field_name)
    | Value (VStr name) =>
        Ok (Serializer oid (Value (mapping_items mapping)) initial name)
    | _ =>
        Raise (ImproperlyConfigured (field_name_not_string_message (cls_name cls)))
    end.

(** *** Serializing and validating *)

(** A bound instance: its class and its primary key. *)
Record instance := Instance {
  instance_class : model;
  pk : nat;
}.

(** The declared type hierarchy of an instance, most derived first. *)
Definition type_hierarchy (obj : instance) : list string :=
  __name__ (instance_class obj) :: bases (instance_class obj).

(** The registered subtype an instance belongs to: the first class of its
    hierarchy that is a key of the registry (most derived wins). *)
Fixpoint resolve_model (hierarchy : list string) (items : registry) : option (model * serializer) :=
  match hierarchy with
  | [] => None
  | name :: ancestors =>
      match lookup_handler name items with
      | Some entry => Some entry
      | None => resolve_model ancestors items
      end
  end.

(** The outcome of a validation, reported as data. *)
Inductive validation :=
| Valid (validated_data : record)
| Invalid (errors : gmap string (list message)).

Section PolymorphicSerializer.
Context {world : Type}.

(** The per-subtype handlers, owned by the host framework: serialization of
    an instance and validation of a payload. *)
Variable handler_to_representation : serializer → instance → M world record.
Variable handler_run_validation : serializer → record → M world validation.

(** Modelled from the spec: [rest_polymorphic/serializers.py] is not among
    the sources.  Determines the subtype of the instance, lets its handler
    serialize it, then injects the discriminator field into the record.  An
    instance no registered subtype matches is a configuration defect. *)
Definition to_representation (self : serializer) (obj : instance) : M world record :=
  match resolve_model (type_hierarchy obj) (registry_of self) with
  | None =>
      lift (Raise (ImproperlyConfigured (__name__ (instance_class obj))))
  | Some (subtype, handler) =>
      ret ← handler_to_representation handler obj;
      mret (<[resource_type_field_name self := VStr (__name__ subtype)]> ret)
  end.

(** A validation error raised by a resolution step becomes the outcome of
    the validation; any other exception stays an exception. *)
Definition as_invalid {A} (r : result A) (k : A → M world validation) : M world validation :=
  match r with
  | Ok a => k a
  | Raise (ValidationError detail) => mret (Invalid detail)
  | Raise e => lift (Raise e)
  end.

(** Modelled from the spec: [rest_polymorphic/serializers.py] is not among
    the sources.  Reads the discriminator value of the payload and selects
    its handler; the handler validates the payload without the
    discriminator field, and the validated data gets the discriminator back.
    Errors are the outcome, not an exception. *)
Definition validate_and_resolve (self : serializer) (payload : record) : M world validation :=
  as_invalid (_get_resource_type_from_mapping self payload) (λ resource_type,
  as_invalid (_get_serializer_from_resource_type self resource_type) (λ handler,
    outcome ← handler_run_validation handler (delete (resource_type_field_name self) payload);
    match outcome with
    | Valid validated_data =>
        mret (Valid (<[resource_type_field_name self := resource_type]> validated_data))
    | Invalid errors => mret (Invalid errors)
    end)).

End PolymorphicSerializer.

End Serializers.

(** ** The form adapter: [renderers.py] *)

Module Renderers.
Import Serializers.

Section PolymorphicRenderer.
Context {world : Type}.

(** Methods of the host framework's serializer: [serializer.is_valid()] and
    the [serializer.data] property. *)
Variable is_valid : serializer → M world bool.
Variable data : serializer → M world record.

(** [BrowsableAPIRenderer.render_form_for_serializer], reached through
    [super()]. *)
Variable super_render_form_for_serializer : serializer → M world html.

(** Lines 12-13: the validation pass forced when raw input is attached.  Its
    verdict is dropped. *)
Definition force_validation (serializer : serializer) : M world () :=
  if hasattr (initial_data serializer)
  then _ ← is_valid serializer; mret ()
  else mret ().

(** Lines 19-21: the form of the handler the bound record resolves to.
    [serializer.data] is read again here. *)
Definition render_bound (serializer : serializer) : M world value :=
  d ← data serializer;
  resource_type ← lift (_get_resource_type_from_mapping serializer d);
  child_serializer ← lift (_get_serializer_from_resource_type serializer resource_type);
  VStr <$> super_render_form_for_serializer child_serializer.

(** Lines 26-29: one element of the generator. *)
Definition labeled_form (item : model * serializer) : M world value :=
  let '(model, serializer) := item in
  form ← super_render_form_for_serializer serializer;
  mret (VTuple [VStr (__name__ model); VStr form]).

(** Lines 25-31: [tuple(... for model, serializer in mapping.items())]. *)
Definition render_unbound (mapping : option registry) : M world value :=
  VTuple <$> mapM labeled_form (mapping_items mapping).

(** Lines 7-33.  The forms the base operation returns are strings; the
    value returned for an unbound dispatcher is a tuple of pairs. *)
Definition render_form_for_serializer (serializer : serializer) : M world value :=
  let mapping := getattr_or_none (model_serializer_mapping serializer) in
  if truthy_mapping mapping then
    force_validation serializer;;
    d ← data serializer;
    if truthy_dict d
    then render_bound serializer
    else render_unbound mapping
  else VStr <$> super_render_form_for_serializer serializer.

(** What one entry of the labeled collection has to be: a pair of the name
    of a subtype and a form the base operation rendered for that subtype's
    own handler. *)
Definition labeled (item : model * serializer) (form : value) : Prop :=
  ∃ h wa wb,
    super_render_form_for_serializer item.2 wa = (Ok h, wb) ∧
    form = VTuple [VStr (__name__ item.1); VStr h].

(** The forms of the items of a registry, rendered one after the other from
    a given state: each item is rendered in the state its predecessor
    left. *)
Inductive rendered_in_order : registry → world → list value → world → Prop :=
| rendered_nil w :
    rendered_in_order [] w [] w
| rendered_cons model serializer rest w form w1 forms w2 :
    super_render_form_for_serializer serializer w = (Ok form, w1) →
    rendered_in_order rest w1 forms w2 →
    rendered_in_order ((model, serializer) :: rest) w
      (VTuple [VStr (__name__ model); VStr form] :: forms) w2.

(** The arguments [get_context] passes on untouched. *)
Context {arguments : Type}.

(** [BrowsableAPIRenderer.get_context], reached through [super()]. *)
Variable super_get_context : arguments → M world (gmap string value).

(** [d[key]] *)
Definition getitem (d : gmap string value) (key : string) : result value :=
  match d !! key with
  | Some v => Ok v
  | None => Raise (KeyError key)
  end.

(** Lines 37-40. *)
Definition get_context (args : arguments) : M world (gmap string value) :=
  ctx ← super_get_context args;
  post_form ← lift (getitem ctx "post_form");
  mret (<["is_polymorphic" := VBool (isinstance_tuple post_form)]> ctx).

End PolymorphicRenderer.

End Renderers.

(** ** A concrete host: the blog hierarchy of the test-suite *)

Module Blog.
Import Serializers Renderers.

Definition BlogBase : model := Model "BlogBase" [].
Definition BlogOne : model := Model "BlogOne" ["BlogBase"].
Definition BlogTwo : model := Model "BlogTwo" ["BlogBase"].

(** A subclass of [BlogOne] that nobody registered. *)
Definition BlogDraft : model := Model "BlogDraft" ["BlogOne"; "BlogBase"].

Definition BlogBaseSerializer : serializer :=
  Serializer 1 Missing Missing default_resource_type_field_name.
Definition BlogOneSerializer : serializer :=
  Serializer 2 Missing Missing default_resource_type_field_name.
Definition BlogTwoSerializer : serializer :=
  Serializer 3 Missing Missing default_resource_type_field_name.

Definition blog_mapping : registry :=
  [(BlogBase, BlogBaseSerializer); (BlogOne, BlogOneSerializer); (BlogTwo, BlogTwoSerializer)].

Definition BlogPolymorphicSerializer : serializer_class :=
  SerializerClass "BlogPolymorphicSerializer" (Value blog_mapping) Missing.

Definition EmptyPolymorphicSerializer : serializer_class :=
  SerializerClass "EmptyPolymorphicSerializer" NoneValue Missing.

Definition NotStringPolymorphicSerializer : serializer_class :=
  SerializerClass "NotStringPolymorphicSerializer" (Value blog_mapping) (Value (VInt 1)).

(** [BlogPolymorphicSerializer()] and [BlogPolymorphicSerializer(data=...)],
    as [construct] builds them. *)
Definition poly_serializer : serializer :=
  Serializer 0 (Value blog_mapping) Missing "resourcetype".

Definition poly_data_serializer (payload : record) : serializer :=
  Serializer 0 (Value blog_mapping) (Value payload) "resourcetype".

(** A serializer whose registry attribute is an empty dict. *)
Definition empty_mapping_serializer : serializer :=
  Serializer 4 (Value []) Missing "resourcetype".

(** The state of the host: the output [.data] yields for each object, and
    the objects validated and rendered so far, latest first. *)
Record world := World {
  output : gmap nat record;
  validated : list nat;
  rendered : list nat;
}.

Definition is_valid (s : serializer) : M world bool :=
  λ w, (Ok true, World (output w) (oid s :: validated w) (rendered w)).

Definition data (s : serializer) : M world record :=
  λ w, (Ok (default ∅ (output w !! oid s)), w).

(** The controls of each handler's form. *)
Definition controls (s : serializer) : html :=
  match oid s with
  | 1 | 3 => "name='name' name='slug'"
  | 2 => "name='name' name='slug' name='info'"
  | _ => ""
  end.

Definition super_render_form_for_serializer (s : serializer) : M world html :=
  λ w, (Ok (controls s), World (output w) (validated w) (oid s :: rendered w)).

(** A base operation whose template for [BlogTwo] is broken. *)
Definition broken_render_form_for_serializer (s : serializer) : M world html :=
  λ w,
    match oid s with
    | 3 => (Raise (HostError "TemplateSyntaxError"), w)
    | _ => super_render_form_for_serializer s w
    end.

(** A validation that crashes, and an output that cannot be produced. *)
Definition crashing_is_valid (s : serializer) : M world bool :=
  λ w, (Raise (HostError "is_valid"), World (output w) (oid s :: validated w) (rendered w)).

Definition crashing_data (s : serializer) : M world record :=
  λ w, (Raise (HostError "data"), w).

(** A base context without a post form, and one that already carries an
    [is_polymorphic] entry. *)
Definition bare_get_context (s : serializer) : M world (gmap string value) :=
  mret {[ "name" := VStr "Blog List" ]}.

Definition flagged_get_context (s : serializer) : M world (gmap string value) :=
  mret {[ "post_form" := VStr "name='name'"; "is_polymorphic" := VStr "yes" ]}.

(** The base context: the post form of the serializer of the view, next to
    an entry of the framework's own. *)
Definition super_get_context (s : serializer) : M world (gmap string value) :=
  post_form ← render_form_for_serializer is_valid data super_render_form_for_serializer s;
  mret {[ "post_form" := post_form; "name" := VStr "Blog List" ]}.

Definition blank : world := World ∅ [] [].

Definition blog_one_record : record :=
  {[ "name" := VStr "test-blog"; "slug" := VStr "test-blog-slug";
     "info" := VStr "test-blog-info"; "resourcetype" := VStr "BlogOne" ]}.

(** The dispatcher is bound to a [BlogOne]. *)
Definition bound_to_blog_one : world := World {[ 0 := blog_one_record ]} [] [].

(** The dispatcher is bound to a record tagged with an unregistered name. *)
Definition bound_to_draft : world :=
  World {[ 0 := <["resourcetype" := VStr "BlogDraft"]> blog_one_record ]} [] [].

(** The dispatcher is bound to a record without the discriminator field. *)
Definition bound_untagged : world :=
  World {[ 0 := delete "resourcetype" blog_one_record ]} [] [].

(** The handlers of the dispatcher: each serializes the name of an instance
    and accepts a payload that has a name. *)
Definition handler_to_representation (h : serializer) (obj : instance) : M world record :=
  mret {[ "name" := VStr "blog"; "slug" := VStr "blog" ]}.

Definition handler_run_validation (h : serializer) (payload : record) : M world validation :=
  λ w,
    (Ok (if bool_decide (is_Some (payload !! "name")) then Valid payload
         else Invalid {[ "name" := [Required] ]}),
     World (output w) (oid h :: validated w) (rendered w)).

End Blog.

(** * Properties *)

Import Serializers Renderers.

(** ** Running a computation *)

Section Running.
Context {world A B : Type}.
Implicit Types (m : M world A) (k : A → M world B) (w : world).

Lemma run_bind_ok m k w a w' :
  m w = (Ok a, w') → (m ≫= k) w = k a w'.
Proof. intros H. unfold mbind, M_bind. by rewrite H. Qed.

Lemma run_bind_raise m k w e w' :
  m w = (Raise e, w') → (m ≫= k) w = (Raise e, w').
Proof. intros H. unfold mbind, M_bind. by rewrite H. Qed.

Lemma run_bind_inv m k w r w' :
  (m ≫= k) w = (r, w') →
  (∃ a w1, m w = (Ok a, w1) ∧ k a w1 = (r, w')) ∨
  (∃ e, m w = (Raise e, w') ∧ r = Raise e).
Proof.
  unfold mbind, M_bind. destruct (m w) as [[a|e] w1]; intros H.
  - left. by exists a, w1.
  - right. exists e. by inversion H.
Qed.

Lemma run_fmap_ok (f : A → B) m w a w' :
  m w = (Ok a, w') → (f <$> m) w = (Ok (f a), w').
Proof. intros H. unfold fmap, M_fmap. by rewrite (run_bind_ok _ _ _ _ _ H). Qed.

Lemma run_fmap_inv (f : A → B) m w r w' :
  (f <$> m) w = (r, w') →
  (∃ a, m w = (Ok a, w') ∧ r = Ok (f a)) ∨
  (∃ e, m w = (Raise e, w') ∧ r = Raise e).
Proof.
  unfold fmap, M_fmap. intros H.
  destruct (run_bind_inv _ _ _ _ _ H) as [(a & w1 & Hm & Hk)|(e & Hm & ->)].
  - left. exists a. inversion Hk. by subst.
  - right. by exists e.
Qed.

End Running.

Lemma run_lift_ok {world A B} (r : result A) (k : A → M world B) (w : world) a :
  r = Ok a → (lift r ≫= k) w = k a w.
Proof. by intros ->. Qed.

Lemma run_lift_raise {world A B} (r : result A) (k : A → M world B) (w : world) e :
  r = Raise e → (lift r ≫= k) w = (Raise e, w).
Proof. by intros ->. Qed.

(** ** Resolution of a discriminator value *)

Lemma lookup_handler_Some name items m h :
  lookup_handler name items = Some (m, h) → __name__ m = name ∧ (m, h) ∈ items.
Proof.
  induction items as [|[m0 h0] rest IH]; simpl; [done|].
  destruct (String.eqb (__name__ m0) name) eqn:E.
  - intros [= -> ->]. apply String.eqb_eq in E. split; [done | left].
  - intros H. destruct (IH H) as [? ?]. split; [done | by right].
Qed.

Lemma lookup_handler_registered items m h :
  (m, h) ∈ items → is_Some (lookup_handler (__name__ m) items).
Proof.
  induction items as [|[m0 h0] rest IH]; [by intros ?%elem_of_nil|].
  intros Hin. simpl. destruct (String.eqb (__name__ m0) (__name__ m)) eqn:E; [by eexists|].
  apply elem_of_cons in Hin as [[= <- <-]|Hin]; [|by apply IH].
  by rewrite String.eqb_refl in E.
Qed.

Lemma resolution_fails self d :
  discriminator_resolves self d = false →
  match _get_resource_type_from_mapping self d with
  | Ok resource_type =>
      _get_serializer_from_resource_type self resource_type =
      Raise (ValidationError {[ resource_type_field_name self := [discriminator_message self d] ]})
  | Raise e =>
      e = ValidationError {[ resource_type_field_name self := [discriminator_message self d] ]}
  end.
Proof.
  unfold discriminator_resolves, discriminator_message, _get_resource_type_from_mapping.
  destruct (d !! resource_type_field_name self) as [rt|]; [|done].
  unfold is_registry_key, _get_serializer_from_resource_type.
  destruct rt; try done.
  destruct (lookup_handler s (registry_of self)) as [[m h]|]; [|done].
  intros H. apply bool_decide_eq_false in H. by destruct H.
Qed.

Lemma resolution_succeeds self d :
  discriminator_resolves self d = true →
  ∃ name m child,
    d !! resource_type_field_name self = Some (VStr name) ∧
    lookup_handler name (registry_of self) = Some (m, child) ∧
    _get_resource_type_from_mapping self d = Ok (VStr name) ∧
    _get_serializer_from_resource_type self (VStr name) = Ok child.
Proof.
  unfold discriminator_resolves, _get_resource_type_from_mapping.
  destruct (d !! resource_type_field_name self) as [rt|]; [|done].
  unfold is_registry_key, _get_serializer_from_resource_type.
  destruct rt; try done.
  intros [[m h] Hl]%bool_decide_eq_true. exists s, m, h. by rewrite Hl.
Qed.

Lemma resolution_raise_inv self d e :
  match _get_resource_type_from_mapping self d with
  | Ok resource_type => _get_serializer_from_resource_type self resource_type = Raise e
  | Raise e' => e' = e
  end →
  discriminator_resolves self d = false ∧
  e = ValidationError {[ resource_type_field_name self := [discriminator_message self d] ]}.
Proof.
  intros H. destruct (discriminator_resolves self d) eqn:E.
  - destruct (resolution_succeeds _ _ E) as (name & m & child & _ & _ & Hrt & Hs).
    rewrite Hrt, Hs in H. done.
  - split; [done|]. pose proof (resolution_fails _ _ E) as F.
    destruct (_get_resource_type_from_mapping self d); congruence.
Qed.

(** ** The form adapter *)

Section RendererFacts.
Context {world : Type}.
Variable is_valid : serializer → M world bool.
Variable data : serializer → M world record.
Variable super_render_form_for_serializer : serializer → M world html.

Local Abbreviation base := super_render_form_for_serializer.

(** The state in which [serializer.data] is first read: the one the forced
    validation pass leaves when raw input is attached, the initial one
    otherwise. *)
Local Abbreviation validation_forced s w w1 :=
  (if hasattr (initial_data s) then ∃ verdict, is_valid s w = (Ok verdict, w1) else w1 = w).

Lemma force_validation_run s w w1 :
  validation_forced s w w1 → force_validation is_valid s w = (Ok (), w1).
Proof.
  unfold force_validation. destruct (hasattr (initial_data s)).
  - intros [b Hb]. by rewrite (run_bind_ok _ _ _ _ _ Hb).
  - by intros ->.
Qed.

Lemma render_dispatcher_run s items w w1 d w2 :
  model_serializer_mapping s = Value items → items ≠ [] →
  validation_forced s w w1 →
  data s w1 = (Ok d, w2) →
  render_form_for_serializer is_valid data base s w =
  (if truthy_dict d
   then render_bound data base s
   else render_unbound base (Some items)) w2.
Proof.
  intros Hm Hne Hv Hd. unfold render_form_for_serializer. rewrite Hm. simpl.
  destruct items as [|item items]; [done|]. simpl.
  rewrite (run_bind_ok _ _ _ _ _ (force_validation_run _ _ _ Hv)).
  by rewrite (run_bind_ok _ _ _ _ _ Hd).
Qed.

Lemma labeled_forms_total items :
  (∀ item w, item ∈ items → ∃ h w', base item.2 w = (Ok h, w')) →
  ∀ w, ∃ forms w', mapM (labeled_form base) items w = (Ok forms, w') ∧
                   rendered_in_order base items w forms w'.
Proof.
  induction items as [|[m h] rest IH]; intros Htot w.
  - exists [], w. split; [done | constructor].
  - destruct (Htot (m, h) w) as (f & w1 & Hf); [left|].
    destruct (IH (λ item w Hin, Htot item w (proj2 (elem_of_cons _ _ _) (or_intror Hin))) w1)
      as (forms & w2 & Hrest & Hall).
    exists (VTuple [VStr (__name__ m); VStr f] :: forms), w2. split.
    + simpl. unfold labeled_form at 1. simpl in Hf.
      rewrite (run_bind_ok _ _ _ _ _ (run_bind_ok _ _ _ _ _ Hf)). simpl.
      by rewrite (run_bind_ok _ _ _ _ _ Hrest).
    + by econstructor.
Qed.

Lemma rendered_in_order_labeled items w forms w' :
  rendered_in_order base items w forms w' → Forall2 (labeled base) items forms.
Proof.
  induction 1 as [|m h rest w f w1 forms w2 Hf _ IH]; constructor; [|done].
  by exists f, w, w1.
Qed.

Lemma labeled_forms_raise items w e w' :
  mapM (labeled_form base) items w = (Raise e, w') →
  ∃ item w0, item ∈ items ∧ base item.2 w0 = (Raise e, w').
Proof.
  revert w. induction items as [|[m h] rest IH]; intros w; [done|].
  simpl. intros H.
  apply run_bind_inv in H as [(f & w1 & Hf & H)|(e' & Hf & [= <-])].
  - apply run_bind_inv in H as [(fs & w2 & Hfs & H)|(e' & Hfs & [= <-])]; [done|].
    destruct (IH _ Hfs) as (item & w0 & Hin & Hr).
    exists item, w0. split; [by right | done].
  - unfold labeled_form in Hf.
    apply run_bind_inv in Hf as [(f & w1 & Hf & H)|(e' & Hf & [= <-])]; [done|].
    exists (m, h), w. split; [left | done].
Qed.

(** C4: a serializer without a [model_serializer_mapping] attribute is
    rendered by the base operation, and what the base operation does (the
    form it returns, the exception it raises, the state it leaves) is what
    the adapter does. *)
Theorem non_polymorphic_pass_through s :
  model_serializer_mapping s = Missing →
  render_form_for_serializer is_valid data base s = VStr <$> base s.
Proof. intros H. unfold render_form_for_serializer. by rewrite H. Qed.

(** C10: a serializer whose [model_serializer_mapping] attribute is an empty
    dict is rendered by the base operation like a non-polymorphic one; no
    empty collection is produced. *)
Theorem empty_mapping_pass_through s :
  model_serializer_mapping s = Value [] →
  render_form_for_serializer is_valid data base s = VStr <$> base s.
Proof. intros H. unfold render_form_for_serializer. by rewrite H. Qed.

(** C1: a dispatcher (non-empty registry) with no bound record, that is
    whose output data is empty.  The output data is read in the state the
    validation pass leaves when raw input is attached.  If the base
    operation renders every registered handler, the result is a tuple with
    one pair per registry item, in the order of the items, each made of the
    name of the subtype and of the base rendering of that subtype's own
    handler; the items are rendered one after the other, starting in the
    state in which the output data was read. *)
Theorem unbound_dispatcher_renders_labeled_collection s items w w1 d w2 :
  model_serializer_mapping s = Value items → items ≠ [] →
  validation_forced s w w1 →
  data s w1 = (Ok d, w2) → d = ∅ →
  (∀ item w, item ∈ items → ∃ h w', base item.2 w = (Ok h, w')) →
  ∃ forms w3,
    render_form_for_serializer is_valid data base s w = (Ok (VTuple forms), w3) ∧
    rendered_in_order base items w2 forms w3 ∧
    length forms = length items ∧
    Forall2 (labeled base) items forms.
Proof.
  intros Hm Hne Hv Hd -> Htot.
  rewrite (render_dispatcher_run _ _ _ _ _ _ Hm Hne Hv Hd).
  destruct (labeled_forms_total items Htot w2) as (forms & w3 & Hrun & Hseq).
  pose proof (rendered_in_order_labeled _ _ _ _ Hseq) as Hall.
  exists forms, w3. split; [|split; [|split]]; try done.
  - change (truthy_dict (∅ : record)) with false. simpl.
    unfold render_unbound. simpl. by rewrite (run_fmap_ok _ _ _ _ _ Hrun).
  - symmetry. by eapply Forall2_length.
Qed.

Lemma render_bound_never_tuple s w v w' :
  render_bound data base s w = (Ok v, w') → isinstance_tuple v = false.
Proof.
  unfold render_bound. intros H.
  apply run_bind_inv in H as [(d & w1 & _ & H)|(e & _ & [=])].
  apply run_bind_inv in H as [(rt & w2 & _ & H)|(e & _ & [=])].
  apply run_bind_inv in H as [(c & w3 & _ & H)|(e & _ & [=])].
  by apply run_fmap_inv in H as [(h & _ & [= ->])|(e & _ & [=])].
Qed.

Lemma render_bound_run s w d' w3 :
  data s w = (Ok d', w3) →
  render_bound data base s w =
  match _get_resource_type_from_mapping s d' with
  | Ok resource_type =>
      match _get_serializer_from_resource_type s resource_type with
      | Ok child => (VStr <$> base child) w3
      | Raise e => (Raise e, w3)
      end
  | Raise e => (Raise e, w3)
  end.
Proof.
  intros Hd. unfold render_bound. rewrite (run_bind_ok _ _ _ _ _ Hd).
  destruct (_get_resource_type_from_mapping s d') as [rt|e]; [|done].
  rewrite (run_lift_ok _ _ _ _ eq_refl).
  by destruct (_get_serializer_from_resource_type s rt).
Qed.

(** C2, as the code has it: a dispatcher whose output data is non-empty
    never gets a tuple.  The record is read again; when its discriminator
    value is a key of the registry, the result is the base rendering of the
    one handler registered for that value; when the value is absent or is
    not a key of the registry, the validation error of the resolution is
    raised. *)
Theorem bound_dispatcher_renders_resolved_handler s items w w1 d w2 :
  model_serializer_mapping s = Value items → items ≠ [] →
  validation_forced s w w1 →
  data s w1 = (Ok d, w2) → d ≠ ∅ →
  (∀ v w', render_form_for_serializer is_valid data base s w = (Ok v, w') →
           isinstance_tuple v = false) ∧
  (∀ d' w3,
     data s w2 = (Ok d', w3) → discriminator_resolves s d' = true →
     ∃ name subtype child,
       d' !! resource_type_field_name s = Some (VStr name) ∧
       lookup_handler name items = Some (subtype, child) ∧
       render_form_for_serializer is_valid data base s w = (VStr <$> base child) w3) ∧
  (∀ d' w3,
     data s w2 = (Ok d', w3) → discriminator_resolves s d' = false →
     render_form_for_serializer is_valid data base s w =
     (Raise (ValidationError {[ resource_type_field_name s := [discriminator_message s d'] ]}),
      w3)).
Proof.
  intros Hm Hne Hv Hd Hd0.
  assert (render_form_for_serializer is_valid data base s w = render_bound data base s w2)
    as Hrun.
  { rewrite (render_dispatcher_run _ _ _ _ _ _ Hm Hne Hv Hd).
    assert (truthy_dict d = true) as ->; [|done].
    unfold truthy_dict. destruct (size d) eqn:E; [|done].
    by apply map_size_empty_iff in E. }
  rewrite Hrun. split; [|split].
  - intros v w'. apply render_bound_never_tuple.
  - intros d' w3 Hd' Hres.
    destruct (resolution_succeeds _ _ Hres) as (name & subtype & child & Hf & Hl & Hrt & Hc).
    exists name, subtype, child. split; [done|]. split.
    + unfold registry_of in Hl. by rewrite Hm in Hl.
    + by rewrite (render_bound_run _ _ _ _ Hd'), Hrt, Hc.
  - intros d' w3 Hd' Hres.
    rewrite (render_bound_run _ _ _ _ Hd').
    pose proof (resolution_fails _ _ Hres) as F.
    destruct (_get_resource_type_from_mapping s d') as [rt|e]; by rewrite F.
Qed.

(** C3, as the code has it: every exception the adapter raises is raised by
    an operation it calls (the validation pass, the reads of the output
    data, the resolution of the discriminator, the base rendering).  For a
    bound record whose discriminator value is absent or is not a key of the
    registry, the validation error of the resolution reaches the caller. *)
Theorem render_raises_what_it_calls_raise s :
  (∀ w e w', render_form_for_serializer is_valid data base s w = (Raise e, w') →
     (∃ w0, is_valid s w0 = (Raise e, w')) ∨
     (∃ w0, data s w0 = (Raise e, w')) ∨
     (∃ d, discriminator_resolves s d = false ∧
           e = ValidationError {[ resource_type_field_name s := [discriminator_message s d] ]}) ∨
     (∃ child w0, base child w0 = (Raise e, w'))) ∧
  (∀ items w w1 d w2 d' w3,
     model_serializer_mapping s = Value items → items ≠ [] →
     validation_forced s w w1 →
     data s w1 = (Ok d, w2) → d ≠ ∅ →
     data s w2 = (Ok d', w3) →
     discriminator_resolves s d' = false →
     render_form_for_serializer is_valid data base s w =
     (Raise (ValidationError {[ resource_type_field_name s := [discriminator_message s d'] ]}), w3)).
Proof.
  split.
  - intros w e w'. unfold render_form_for_serializer.
    destruct (truthy_mapping _).
    + intros H.
      apply run_bind_inv in H as [([] & w1 & Hv & H)|(e' & Hv & [= <-])].
      * apply run_bind_inv in H as [(d & w2 & Hd & H)|(e' & Hd & [= <-])];
          [|right; left; by exists w1].
        destruct (truthy_dict d).
        -- unfold render_bound in H.
           apply run_bind_inv in H as [(d' & w3 & Hd' & H)|(e' & Hd' & [= <-])];
             [|right; left; by exists w2].
           right. right.
           destruct (_get_resource_type_from_mapping s d') as [rt|e0] eqn:Hrt.
           ++ rewrite (run_lift_ok _ _ _ _ eq_refl) in H.
              destruct (_get_serializer_from_resource_type s rt) as [c|e1] eqn:Hc.
              ** rewrite (run_lift_ok _ _ _ _ eq_refl) in H.
                 apply run_fmap_inv in H as [(h & _ & [=])|(e' & Hb & [= <-])].
                 right. by exists c, w3.
              ** rewrite (run_lift_raise _ _ _ _ eq_refl) in H.
                 injection H as <- <-. left. exists d'.
                 apply resolution_raise_inv. by rewrite Hrt.
           ++ rewrite (run_lift_raise _ _ _ _ eq_refl) in H.
              injection H as <- <-. left. exists d'.
              apply resolution_raise_inv. by rewrite Hrt.
        -- unfold render_unbound in H.
           apply run_fmap_inv in H as [(fs & _ & [=])|(e' & Hb & [= <-])].
           destruct (labeled_forms_raise _ _ _ _ Hb) as ([m c] & w0 & _ & Hr).
           right. right. right. by exists c, w0.
      * unfold force_validation in Hv. destruct (hasattr _); [|done].
        apply run_bind_inv in Hv as [(b & w1 & _ & [=])|(e' & Hv & [= <-])].
        left. by exists w.
    + intros H. apply run_fmap_inv in H as [(h & _ & [=])|(e' & Hb & [= <-])].
      right. right. right. by exists s, w.
  - intros items w w1 d w2 d' w3 Hm Hne Hv Hd Hd0 Hd' Hres.
    rewrite (render_dispatcher_run _ _ _ _ _ _ Hm Hne Hv Hd).
    assert (truthy_dict d = true) as ->.
    { unfold truthy_dict. destruct (size d) eqn:E; [|done].
      by apply map_size_empty_iff in E. }
    unfold render_bound. rewrite (run_bind_ok _ _ _ _ _ Hd').
    pose proof (resolution_fails _ _ Hres) as F.
    destruct (_get_resource_type_from_mapping s d') as [rt|e0].
    + rewrite (run_lift_ok _ _ _ _ eq_refl).
      by rewrite (run_lift_raise _ _ _ _ F).
    + by rewrite (run_lift_raise _ _ _ _ eq_refl), F.
Qed.

End RendererFacts.

Section ContextFacts.
Context {world arguments : Type}.
Variable super_get_context : arguments → M world (gmap string value).

Lemma get_context_run args w ctx w' post_form :
  super_get_context args w = (Ok ctx, w') →
  ctx !! "post_form" = Some post_form →
  get_context super_get_context args w =
  (Ok (<["is_polymorphic" := VBool (isinstance_tuple post_form)]> ctx), w').
Proof.
  intros Hs Hp. unfold get_context. rewrite (run_bind_ok _ _ _ _ _ Hs).
  unfold getitem. by rewrite Hp.
Qed.

(** C5: when the base operation returns a context with a post form,
    [get_context] returns that context with the entry [is_polymorphic] set
    to a boolean, which is true exactly when the post form is a tuple (the
    labeled collection) and false for a single form. *)
Theorem get_context_flags_labeled_collection args w ctx w' post_form :
  super_get_context args w = (Ok ctx, w') →
  ctx !! "post_form" = Some post_form →
  ∃ flag,
    get_context super_get_context args w =
      (Ok (<["is_polymorphic" := VBool flag]> ctx), w') ∧
    (flag = true ↔ ∃ forms, post_form = VTuple forms) ∧
    (∀ form, post_form = VStr form → flag = false).
Proof.
  intros Hs Hp. exists (isinstance_tuple post_form). split; [|split].
  - by apply get_context_run.
  - destruct post_form; simpl; split; try done; try by intros [? [=]].
    intros _. by eexists.
  - by intros form ->.
Qed.

(** C9: the context [get_context] returns agrees with the base context on
    every key other than [is_polymorphic], its keys are those of the base
    context and [is_polymorphic], and the state is the one the base
    operation left. *)
Theorem get_context_frame args w ctx w' post_form :
  super_get_context args w = (Ok ctx, w') →
  ctx !! "post_form" = Some post_form →
  ∃ ctx',
    get_context super_get_context args w = (Ok ctx', w') ∧
    (∀ key, key ≠ "is_polymorphic" → ctx' !! key = ctx !! key) ∧
    dom ctx' = {["is_polymorphic"]} ∪ dom ctx ∧
    (ctx !! "is_polymorphic" = None →
     ∀ key v, ctx !! key = Some v → ctx' !! key = Some v).
Proof.
  intros Hs Hp. eexists. split; [by apply get_context_run|]. split; [|split].
  - intros key Hne. by rewrite lookup_insert_ne.
  - by rewrite dom_insert_L.
  - intros Hnone key v Hk. rewrite lookup_insert_ne; [done|]. congruence.
Qed.

End ContextFacts.

(** ** The dispatcher *)

Section DispatcherFacts.
Context {world : Type}.
Variable handler_to_representation : serializer → instance → M world record.
Variable handler_run_validation : serializer → record → M world validation.

(** The discriminator names the subtype the instance resolved to. *)
Lemma to_representation_run self obj subtype handler w ret w' :
  resolve_model (type_hierarchy obj) (registry_of self) = Some (subtype, handler) →
  handler_to_representation handler obj w = (Ok ret, w') →
  to_representation handler_to_representation self obj w =
  (Ok (<[resource_type_field_name self := VStr (__name__ subtype)]> ret), w').
Proof.
  intros Hr Hh. unfold to_representation. rewrite Hr.
  by rewrite (run_bind_ok _ _ _ _ _ Hh).
Qed.

Lemma resolve_model_registered hierarchy items subtype handler :
  resolve_model hierarchy items = Some (subtype, handler) →
  __name__ subtype ∈ hierarchy ∧ (subtype, handler) ∈ items.
Proof.
  induction hierarchy as [|name ancestors IH]; simpl; [done|].
  destruct (lookup_handler name items) as [[m h]|] eqn:E.
  - intros [= -> ->]. apply lookup_handler_Some in E as [<- ?]. split; [left | done].
  - intros H. destruct (IH H) as [? ?]. split; [by right | done].
Qed.

(** Whatever record the dispatcher returns carries the discriminator field,
    and its value is the name of a registered subtype found in the type
    hierarchy of the instance. *)
Lemma to_representation_tagged self obj w out w' :
  to_representation handler_to_representation self obj w = (Ok out, w') →
  ∃ subtype handler,
    (subtype, handler) ∈ registry_of self ∧
    __name__ subtype ∈ type_hierarchy obj ∧
    out !! resource_type_field_name self = Some (VStr (__name__ subtype)).
Proof.
  unfold to_representation.
  destruct (resolve_model _ _) as [[subtype handler]|] eqn:E; [|done].
  intros H. apply run_bind_inv in H as [(ret & w1 & _ & [= <- _])|(e & _ & [=])].
  destruct (resolve_model_registered _ _ _ _ E) as [? ?].
  exists subtype, handler. by rewrite lookup_insert_eq.
Qed.

Lemma resolve_model_skip skipped hierarchy items :
  Forall (λ name, lookup_handler name items = None) skipped →
  resolve_model (skipped ++ hierarchy) items = resolve_model hierarchy items.
Proof.
  induction 1 as [|name skipped Hname _ IH]; [done|].
  simpl. by rewrite Hname.
Qed.

(** Every hierarchy that holds a registered class splits at its most
    derived registered class. *)
Lemma most_derived_registered hierarchy items registered :
  registered ∈ hierarchy → is_Some (lookup_handler registered items) →
  ∃ skipped name ancestors,
    hierarchy = skipped ++ name :: ancestors ∧
    Forall (λ name, lookup_handler name items = None) skipped ∧
    is_Some (lookup_handler name items).
Proof.
  intros Hin Hreg. induction hierarchy as [|class rest IH]; [by apply elem_of_nil in Hin|].
  destruct (lookup_handler class items) as [entry|] eqn:E.
  - exists [], class, rest. split; [done|]. split; [constructor | by rewrite E].
  - apply elem_of_cons in Hin as [->|Hin]; [rewrite E in Hreg; by destruct Hreg|].
    destruct (IH Hin) as (skipped & name & ancestors & -> & Hskip & Hname).
    exists (class :: skipped), name, ancestors. split; [done|]. split; [by constructor | done].
Qed.

(** C6: an instance of a registered subtype, by its own class or by
    inheritance: [name] is the most derived class of its hierarchy that is
    a key of the registry (the classes before it are not registered).  Once
    the handler registered for [name] has serialized the instance, the
    dispatcher returns the handler's record with the discriminator field
    set to [name], the name that subtype is registered under; the other
    fields are the handler's. *)
Theorem serialize_injects_discriminator
    self obj skipped name ancestors subtype handler w ret w' :
  type_hierarchy obj = skipped ++ name :: ancestors →
  Forall (λ class, lookup_handler class (registry_of self) = None) skipped →
  lookup_handler name (registry_of self) = Some (subtype, handler) →
  handler_to_representation handler obj w = (Ok ret, w') →
  ∃ out,
    to_representation handler_to_representation self obj w = (Ok out, w') ∧
    out !! resource_type_field_name self = Some (VStr name) ∧
    __name__ subtype = name ∧
    (subtype, handler) ∈ registry_of self ∧
    (∀ key, key ≠ resource_type_field_name self → out !! key = ret !! key).
Proof.
  intros Hh Hskip Hl Hrun.
  destruct (lookup_handler_Some _ _ _ _ Hl) as [Hname Hin].
  exists (<[resource_type_field_name self := VStr (__name__ subtype)]> ret).
  split; [|split; [|split; [|split]]]; try done.
  - apply (to_representation_run _ _ subtype handler); [|done].
    rewrite Hh, (resolve_model_skip _ _ _ Hskip). simpl. by rewrite Hl.
  - by rewrite lookup_insert_eq, Hname.
  - intros key Hne. by rewrite lookup_insert_ne.
Qed.

(** C7: a payload whose discriminator value is absent or is not a key of the
    registry.  The validation returns (it does not raise) an invalid
    outcome whose only entry is under the discriminator field: "required"
    when the value is absent, "no matching handler" for the value
    otherwise.  The state is untouched and the outcome is the same whatever
    the handlers would do: no handler runs. *)
Theorem validate_unresolved_discriminator self payload w :
  (payload !! resource_type_field_name self = None ∨
   ∃ v, payload !! resource_type_field_name self = Some v ∧ is_registry_key self v = false) →
  ∃ msg,
    validate_and_resolve handler_run_validation self payload w =
      (Ok (Invalid {[ resource_type_field_name self := [msg] ]}), w) ∧
    (payload !! resource_type_field_name self = None → msg = Required) ∧
    (∀ v, payload !! resource_type_field_name self = Some v → msg = NoMatchingHandler v) ∧
    (∀ other_handlers : serializer → record → M world validation,
       validate_and_resolve other_handlers self payload w =
       validate_and_resolve handler_run_validation self payload w).
Proof.
  intros H.
  assert (discriminator_resolves self payload = false) as Hres.
  { unfold discriminator_resolves. by destruct H as [->|(v & -> & ?)]. }
  assert (∀ hrv : serializer → record → M world validation,
    validate_and_resolve hrv self payload w =
    (Ok (Invalid {[ resource_type_field_name self := [discriminator_message self payload] ]}), w))
    as Hrun.
  { intros hrv. unfold validate_and_resolve.
    pose proof (resolution_fails _ _ Hres) as F.
    destruct (_get_resource_type_from_mapping self payload) as [rt|e]; simpl.
    - by rewrite F.
    - by rewrite F. }
  exists (discriminator_message self payload). split; [apply Hrun|].
  split; [|split].
  - unfold discriminator_message. by intros ->.
  - unfold discriminator_message. by intros v ->.
  - intros other. by rewrite !Hrun.
Qed.

End DispatcherFacts.

(** C8: construction fails with the "missing mapping" message of the class
    when the registry is absent, [None] or empty; with a non-empty registry
    it fails with the "must be a string" message of the class when the
    field name is set to something that is not a string, and succeeds when
    the field name is a string or left to its default. *)
Theorem construct_configuration cls oid initial :
  ((cls_model_serializer_mapping cls = Missing ∨
    cls_model_serializer_mapping cls = NoneValue ∨
    cls_model_serializer_mapping cls = Value []) →
   construct cls oid initial =
   Raise (ImproperlyConfigured (missing_mapping_message (cls_name cls)))) ∧
  (∀ item items,
     cls_model_serializer_mapping cls = Value (item :: items) →
     ((cls_resource_type_field_name cls = NoneValue ∨
       ∃ v, cls_resource_type_field_name cls = Value v ∧ isinstance_str v = false) →
      construct cls oid initial =
      Raise (ImproperlyConfigured (field_name_not_string_message (cls_name cls)))) ∧
     (∀ name,
        (cls_resource_type_field_name cls = Missing ∧ name = default_resource_type_field_name) ∨
        cls_resource_type_field_name cls = Value (VStr name) →
        ∃ self,
          construct cls oid initial = Ok self ∧
          registry_of self = item :: items ∧
          resource_type_field_name self = name)).
Proof.
  unfold construct. split.
  - by intros [->|[->| ->]].
  - intros item items ->. simpl. split.
    + intros [->|(v & -> & Hv)]; [done|]. by destruct v.
    + intros name [[-> ->]| ->]; by eexists.
Qed.

(** ** The properties on the blog hierarchy *)

Local Abbreviation blog_render :=
  (render_form_for_serializer Blog.is_valid Blog.data Blog.super_render_form_for_serializer).

(** The renderer test of the test-suite: three labeled forms, and only the
    [BlogOne] form has a control for "info". *)
Example blog_unbound_forms :
  fst (blog_render Blog.poly_serializer Blog.blank) =
  Ok (VTuple
        [VTuple [VStr "BlogBase"; VStr "name='name' name='slug'"];
         VTuple [VStr "BlogOne"; VStr "name='name' name='slug' name='info'"];
         VTuple [VStr "BlogTwo"; VStr "name='name' name='slug'"]]).
Proof. reflexivity. Qed.

(** With the broken template the third form raises; the exception of the
    base operation is the exception of the adapter, and the two forms
    rendered before it have left their mark. *)
Example blog_broken_template :
  render_form_for_serializer Blog.is_valid Blog.data
    Blog.broken_render_form_for_serializer Blog.poly_serializer Blog.blank =
  (Raise (HostError "TemplateSyntaxError"), Blog.World ∅ [] [2; 1]).
Proof. reflexivity. Qed.

(** An instance of the unregistered [BlogDraft] is serialized by the handler
    of [BlogOne], its nearest registered ancestor. *)
Example blog_draft_most_derived :
  resolve_model (type_hierarchy (Instance Blog.BlogDraft 9)) Blog.blog_mapping =
    Some (Blog.BlogOne, Blog.BlogOneSerializer) ∧
  fst (to_representation Blog.handler_to_representation Blog.poly_serializer
         (Instance Blog.BlogDraft 9) Blog.blank) =
    Ok {[ "name" := VStr "blog"; "slug" := VStr "blog"; "resourcetype" := VStr "BlogOne" ]}.
Proof. split; reflexivity. Qed.

Lemma non_polymorphic_pass_through_witness :
  model_serializer_mapping Blog.BlogOneSerializer = Missing ∧
  blog_render Blog.BlogOneSerializer =
  VStr <$> Blog.super_render_form_for_serializer Blog.BlogOneSerializer.
Proof.
  split; [reflexivity|].
  apply (non_polymorphic_pass_through Blog.is_valid Blog.data
           Blog.super_render_form_for_serializer Blog.BlogOneSerializer).
  reflexivity.
Defined.

Lemma empty_mapping_pass_through_witness :
  model_serializer_mapping Blog.empty_mapping_serializer = Value [] ∧
  blog_render Blog.empty_mapping_serializer =
  VStr <$> Blog.super_render_form_for_serializer Blog.empty_mapping_serializer.
Proof.
  split; [reflexivity|].
  apply (empty_mapping_pass_through Blog.is_valid Blog.data
           Blog.super_render_form_for_serializer Blog.empty_mapping_serializer).
  reflexivity.
Defined.

(** A dispatcher that was handed raw input and produces no output: the
    dispatcher is validated, then the three handlers are rendered in the
    order of the registry. *)
Lemma unbound_dispatcher_renders_labeled_collection_witness :
  ∃ forms,
    blog_render (Blog.poly_data_serializer {[ "name" := VStr "blog" ]}) Blog.blank =
      (Ok (VTuple forms), Blog.World ∅ [0] [3; 2; 1]) ∧
    length forms = 3 ∧
    Forall2 (labeled Blog.super_render_form_for_serializer) Blog.blog_mapping forms.
Proof.
  destruct (unbound_dispatcher_renders_labeled_collection Blog.is_valid Blog.data
              Blog.super_render_form_for_serializer
              (Blog.poly_data_serializer {[ "name" := VStr "blog" ]})
              Blog.blog_mapping Blog.blank (Blog.World ∅ [0] []) ∅ (Blog.World ∅ [0] []))
    as (forms & w3 & Hrun & _ & Hlen & Hall).
  - reflexivity.
  - discriminate.
  - exists true. reflexivity.
  - reflexivity.
  - reflexivity.
  - intros item w _. eexists _, _. reflexivity.
  - exists forms. split; [|split; [exact Hlen | exact Hall]].
    rewrite Hrun. injection Hrun as _ <-. reflexivity.
Defined.

Lemma bound_dispatcher_renders_resolved_handler_witness :
  blog_render Blog.poly_serializer Blog.bound_to_blog_one =
    (VStr <$> Blog.super_render_form_for_serializer Blog.BlogOneSerializer)
      Blog.bound_to_blog_one ∧
  ∀ v w', blog_render Blog.poly_serializer Blog.bound_to_blog_one = (Ok v, w') →
          isinstance_tuple v = false.
Proof.
  destruct (bound_dispatcher_renders_resolved_handler Blog.is_valid Blog.data
              Blog.super_render_form_for_serializer Blog.poly_serializer
              Blog.blog_mapping Blog.bound_to_blog_one Blog.bound_to_blog_one
              Blog.blog_one_record Blog.bound_to_blog_one)
    as (Hsingle & Hresolved & _).
  - reflexivity.
  - discriminate.
  - reflexivity.
  - reflexivity.
  - intros E. apply (f_equal size) in E. vm_compute in E. discriminate.
  - split; [|exact Hsingle].
    destruct (Hresolved Blog.blog_one_record Blog.bound_to_blog_one eq_refl eq_refl)
      as (name & subtype & child & Hname & Hchild & Hrun).
    vm_compute in Hname. injection Hname as <-.
    vm_compute in Hchild. injection Hchild as _ <-.
    exact Hrun.
Defined.

(** C2 as the spec states it fails here: the output of the dispatcher is
    non-empty, but its record is tagged "BlogDraft", a subtype nobody
    registered; what is returned is not the base rendering of any handler,
    an exception is raised. *)
Lemma bound_dispatcher_unresolved_counterexample :
  (∃ d, Blog.data Blog.poly_serializer Blog.bound_to_draft = (Ok d, Blog.bound_to_draft) ∧
        d ≠ ∅) ∧
  is_ok (fst (blog_render Blog.poly_serializer Blog.bound_to_draft)) = false ∧
  ∀ child,
    blog_render Blog.poly_serializer Blog.bound_to_draft ≠
    (VStr <$> Blog.super_render_form_for_serializer child) Blog.bound_to_draft.
Proof.
  split; [|split].
  - eexists. split; [reflexivity|].
    intros E. apply (f_equal size) in E. vm_compute in E. discriminate.
  - reflexivity.
  - intros child E. apply (f_equal (λ p, is_ok p.1)) in E. vm_compute in E. discriminate.
Qed.

(** C3 as the spec states it fails here: the dispatcher is bound to a record
    tagged "BlogDraft", a subtype nobody registered.  The base operation of
    this host raises on no serializer, yet rendering the dispatcher raises
    the validation error of the resolution. *)
Lemma render_unresolved_discriminator_counterexample :
  Blog.data Blog.poly_serializer Blog.bound_to_draft =
    (Ok (<["resourcetype" := VStr "BlogDraft"]> Blog.blog_one_record), Blog.bound_to_draft) ∧
  discriminator_resolves Blog.poly_serializer
    (<["resourcetype" := VStr "BlogDraft"]> Blog.blog_one_record) = false ∧
  (∀ s w, is_ok (fst (Blog.super_render_form_for_serializer s w)) = true) ∧
  fst (blog_render Blog.poly_serializer Blog.bound_to_draft) =
    Raise (ValidationError {[ "resourcetype" := [NoMatchingHandler (VStr "BlogDraft")] ]}).
Proof. repeat split; reflexivity. Qed.

Lemma render_raises_what_it_calls_raise_witness :
  blog_render Blog.poly_serializer Blog.bound_untagged =
  (Raise (ValidationError {[ "resourcetype" := [Required] ]}), Blog.bound_untagged).
Proof.
  etransitivity.
  - apply (proj2 (render_raises_what_it_calls_raise Blog.is_valid Blog.data
                    Blog.super_render_form_for_serializer Blog.poly_serializer)
             Blog.blog_mapping Blog.bound_untagged Blog.bound_untagged
             (delete "resourcetype" Blog.blog_one_record) Blog.bound_untagged
             (delete "resourcetype" Blog.blog_one_record) Blog.bound_untagged).
    + reflexivity.
    + discriminate.
    + reflexivity.
    + reflexivity.
    + intros E. apply (f_equal size) in E. vm_compute in E. discriminate.
    + reflexivity.
    + reflexivity.
  - reflexivity.
Defined.

(** The unbound dispatcher as the serializer of the view: the post form is
    the labeled collection and the flag is on. *)
Lemma get_context_flags_labeled_collection_witness :
  ∃ ctx,
    fst (Blog.super_get_context Blog.poly_serializer Blog.blank) = Ok ctx ∧
    fst (get_context Blog.super_get_context Blog.poly_serializer Blog.blank) =
      Ok (<["is_polymorphic" := VBool true]> ctx).
Proof.
  destruct (get_context_flags_labeled_collection Blog.super_get_context
              Blog.poly_serializer Blog.blank _ _ _ eq_refl eq_refl)
    as (flag & Hrun & Hflag & _).
  eexists. split; [reflexivity|].
  rewrite Hrun. simpl. do 3 f_equal. apply Hflag. eexists. reflexivity.
Defined.

(** A plain handler as the serializer of the view: the entries of the base
    context are kept. *)
Lemma get_context_frame_witness :
  ∃ ctx',
    fst (get_context Blog.super_get_context Blog.BlogOneSerializer Blog.blank) = Ok ctx' ∧
    ctx' !! "name" = Some (VStr "Blog List") ∧
    ctx' !! "post_form" = Some (VStr "name='name' name='slug' name='info'") ∧
    ctx' !! "is_polymorphic" = Some (VBool false).
Proof.
  destruct (get_context_frame Blog.super_get_context Blog.BlogOneSerializer Blog.blank
              _ _ _ eq_refl eq_refl)
    as (ctx' & Hrun & Hframe & _ & _).
  exists ctx'. rewrite Hrun. split; [reflexivity|]. split; [|split].
  - rewrite Hframe by discriminate. reflexivity.
  - rewrite Hframe by discriminate. reflexivity.
  - injection Hrun as <-. reflexivity.
Defined.

Local Abbreviation blog_payload_invalid :=
  ({[ "name" := VStr "blog"; "resourcetype" := VStr "Invalid" ]} : record).

(** The serialization test of the test-suite on a [BlogOne], and an
    instance of [BlogDraft], a [BlogOne] by inheritance: both are tagged
    "BlogOne". *)
Lemma serialize_injects_discriminator_witness :
  (∃ out,
     to_representation Blog.handler_to_representation Blog.poly_serializer
       (Instance Blog.BlogOne 7) Blog.blank = (Ok out, Blog.blank) ∧
     out !! "resourcetype" = Some (VStr "BlogOne")) ∧
  (∃ out,
     to_representation Blog.handler_to_representation Blog.poly_serializer
       (Instance Blog.BlogDraft 9) Blog.blank = (Ok out, Blog.blank) ∧
     out !! "resourcetype" = Some (VStr "BlogOne")).
Proof.
  split.
  - destruct (serialize_injects_discriminator Blog.handler_to_representation
                Blog.poly_serializer (Instance Blog.BlogOne 7)
                [] "BlogOne" ["BlogBase"] Blog.BlogOne Blog.BlogOneSerializer
                Blog.blank _ Blog.blank
                eq_refl (Forall_nil_2 _) eq_refl eq_refl)
      as (out & Hrun & Hfield & _).
    exists out. split; [exact Hrun | exact Hfield].
  - destruct (serialize_injects_discriminator Blog.handler_to_representation
                Blog.poly_serializer (Instance Blog.BlogDraft 9)
                ["BlogDraft"] "BlogOne" ["BlogBase"] Blog.BlogOne Blog.BlogOneSerializer
                Blog.blank _ Blog.blank
                eq_refl (Forall_cons_2 _ "BlogDraft" [] eq_refl (Forall_nil_2 _)) eq_refl eq_refl)
      as (out & Hrun & Hfield & _).
    exists out. split; [exact Hrun | exact Hfield].
Defined.

(** The payload of [test_deserialize_with_invalid_resourcetype]; the
    handlers of this host would have left a mark in the state. *)
Lemma validate_unresolved_discriminator_witness :
  validate_and_resolve Blog.handler_run_validation Blog.poly_serializer
    blog_payload_invalid Blog.blank =
  (Ok (Invalid {[ "resourcetype" := [NoMatchingHandler (VStr "Invalid")] ]}), Blog.blank).
Proof.
  destruct (validate_unresolved_discriminator Blog.handler_run_validation
              Blog.poly_serializer blog_payload_invalid Blog.blank)
    as (msg & Hrun & _ & Hmsg & _).
  - right. exists (VStr "Invalid"). split; reflexivity.
  - rewrite Hrun. rewrite (Hmsg (VStr "Invalid") eq_refl). reflexivity.
Defined.

(** The three classes of the test-suite. *)
Lemma construct_configuration_witness :
  construct Blog.EmptyPolymorphicSerializer 0 Missing =
    Raise (ImproperlyConfigured
      "`EmptyPolymorphicSerializer` is missing a `EmptyPolymorphicSerializer.model_serializer_mapping` attribute") ∧
  construct Blog.NotStringPolymorphicSerializer 0 Missing =
    Raise (ImproperlyConfigured
      "`NotStringPolymorphicSerializer.resource_type_field_name` must be a string") ∧
  ∃ self,
    construct Blog.BlogPolymorphicSerializer 0 Missing = Ok self ∧
    registry_of self = Blog.blog_mapping ∧
    resource_type_field_name self = "resourcetype".
Proof.
  split; [|split].
  - apply (proj1 (construct_configuration Blog.EmptyPolymorphicSerializer 0 Missing)).
    right. left. reflexivity.
  - apply (proj1 (proj2 (construct_configuration Blog.NotStringPolymorphicSerializer 0 Missing)
                   _ _ eq_refl)).
    right. exists (VInt 1). split; reflexivity.
  - apply (proj2 (proj2 (construct_configuration Blog.BlogPolymorphicSerializer 0 Missing)
                   _ _ eq_refl)).
    left. split; reflexivity.
Defined.

(** * Further properties of the form adapter *)

Section AdapterFacts.
Context {world : Type}.
Variable is_valid : serializer → M world bool.
Variable data : serializer → M world record.
Variable super_render_form_for_serializer : serializer → M world html.

Local Abbreviation base := super_render_form_for_serializer.
Local Abbreviation validation_forced s w w1 :=
  (if hasattr (initial_data s) then ∃ verdict, is_valid s w = (Ok verdict, w1) else w1 = w).

Lemma force_validation_inv s w r w1 :
  force_validation is_valid s w = (r, w1) →
  (r = Ok () ∧ validation_forced s w w1) ∨
  (∃ e, r = Raise e ∧ hasattr (initial_data s) = true ∧ is_valid s w = (Raise e, w1)).
Proof.
  unfold force_validation. destruct (hasattr (initial_data s)).
  - intros H. apply run_bind_inv in H as [(b & w' & Hb & [= <- <-])|(e & Hb & ->)].
    + left. split; [done | by exists b].
    + right. by exists e.
  - intros [= <- <-]. by left.
Qed.

Lemma truthy_dict_false (d : record) : truthy_dict d = false → d = ∅.
Proof.
  unfold truthy_dict. destruct (size d) eqn:E; [|done].
  intros _. by apply map_size_empty_iff.
Qed.

Lemma truthy_dict_true (d : record) : d ≠ ∅ → truthy_dict d = true.
Proof.
  intros Hne. unfold truthy_dict. destruct (size d) eqn:E; [|done].
  by apply map_size_empty_iff in E.
Qed.

Lemma truthy_mapping_true (mapping : attribute registry) :
  truthy_mapping (getattr_or_none mapping) = true →
  ∃ items, mapping = Value items ∧ items ≠ [].
Proof.
  destruct mapping as [| |items]; simpl; try done.
  destruct items; [done|]. intros _. by eexists.
Qed.

Lemma labeled_forms_ok_inv items w forms w' :
  mapM (labeled_form base) items w = (Ok forms, w') →
  rendered_in_order base items w forms w'.
Proof.
  revert w forms. induction items as [|[m h] rest IH]; intros w forms.
  - intros [= <- <-]. constructor.
  - simpl. intros H.
    apply run_bind_inv in H as [(f & w1 & Hf & H)|(e & _ & [=])].
    apply run_bind_inv in H as [(fs & w2 & Hfs & [= <- <-])|(e & _ & [=])].
    unfold labeled_form in Hf.
    apply run_bind_inv in Hf as [(h' & w0 & Hh & [= <- <-])|(e & _ & [=])].
    econstructor; [done | by apply IH].
Qed.

Lemma rendered_in_order_length items w forms w' :
  rendered_in_order base items w forms w' → length forms = length items.
Proof. induction 1; simpl; congruence. Qed.


Lemma render_tuple_inv s w forms w' :
  render_form_for_serializer is_valid data base s w = (Ok (VTuple forms), w') →
  ∃ items w1 w2,
    model_serializer_mapping s = Value items ∧ items ≠ [] ∧
    validation_forced s w w1 ∧
    data s w1 = (Ok ∅, w2) ∧
    rendered_in_order base items w2 forms w'.
Proof.
  unfold render_form_for_serializer.
  destruct (truthy_mapping _) eqn:Ht.
  - destruct (truthy_mapping_true _ Ht) as (items & Hm & Hne). rewrite Hm. simpl.
    intros H.
    apply run_bind_inv in H as [([] & w1 & Hv & H)|(e & _ & [=])].
    apply force_validation_inv in Hv as [[_ Hv]|(e & [=] & _)].
    apply run_bind_inv in H as [(d & w2 & Hd & H)|(e & _ & [=])].
    destruct (truthy_dict d) eqn:Hdt.
    + unfold render_bound in H.
      apply run_bind_inv in H as [(d' & w3 & _ & H)|(e & _ & [=])].
      apply run_bind_inv in H as [(rt & w4 & _ & H)|(e & _ & [=])].
      apply run_bind_inv in H as [(c & w5 & _ & H)|(e & _ & [=])].
      by apply run_fmap_inv in H as [(h & _ & [=])|(e & _ & [=])].
    + apply truthy_dict_false in Hdt as ->.
      unfold render_unbound in H. simpl in H.
      apply run_fmap_inv in H as [(fs & Hrun & [= <-])|(e & _ & [=])].
      apply labeled_forms_ok_inv in Hrun.
      by exists items, w1, w2.
  - intros H. by apply run_fmap_inv in H as [(h & _ & [=])|(e & _ & [=])].
Qed.

(** A tuple is only ever returned for a dispatcher whose output data is
    empty, and it is never empty: it holds the forms of all the items of
    the registry, rendered in the order of the registry from the state in
    which the output data was read. *)
Theorem returned_tuple_is_the_registry s w forms w' :
  render_form_for_serializer is_valid data base s w = (Ok (VTuple forms), w') →
  ∃ items w1 w2,
    model_serializer_mapping s = Value items ∧ items ≠ [] ∧
    validation_forced s w w1 ∧
    data s w1 = (Ok ∅, w2) ∧
    rendered_in_order base items w2 forms w' ∧
    length forms = length items ∧ forms ≠ [].
Proof.
  intros H.
  destruct (render_tuple_inv _ _ _ _ H) as (items & w1 & w2 & Hm & Hne & Hv & Hd & Hseq).
  pose proof (rendered_in_order_length _ _ _ _ Hseq) as Hlen.
  exists items, w1, w2. repeat split; try done.
  intros ->. destruct items; [done | discriminate].
Qed.

(** The verdict of the forced validation pass is not looked at: a host
    whose [is_valid] answers differently, but fails and changes the state in
    the same way, gets the same rendering. *)
Theorem validation_verdict_is_dropped (revise : bool → bool) s w :
  render_form_for_serializer (λ s, revise <$> is_valid s) data base s w =
  render_form_for_serializer is_valid data base s w.
Proof.
  unfold render_form_for_serializer. destruct (truthy_mapping _); [|done].
  unfold force_validation. destruct (hasattr _); [|done].
  unfold fmap, M_fmap, mbind, M_bind, mret, M_ret.
  by destruct (is_valid s w) as [[b|e] w1].
Qed.

(** A dispatcher without raw input is not validated: the rendering is the
    same whatever [is_valid] would do. *)
Theorem no_raw_input_no_validation (other_is_valid : serializer → M world bool) s :
  hasattr (initial_data s) = false →
  render_form_for_serializer other_is_valid data base s =
  render_form_for_serializer is_valid data base s.
Proof.
  intros H. unfold render_form_for_serializer, force_validation. by rewrite H.
Qed.

(** An exception of the forced validation pass is the exception of the
    adapter, in the state the validation left: the output data is not read
    and nothing is rendered. *)
Theorem validation_exception_propagates s items w e w1 :
  model_serializer_mapping s = Value items → items ≠ [] →
  hasattr (initial_data s) = true →
  is_valid s w = (Raise e, w1) →
  render_form_for_serializer is_valid data base s w = (Raise e, w1).
Proof.
  intros Hm Hne Hi Hv. unfold render_form_for_serializer. rewrite Hm. simpl.
  destruct items; [done|]. simpl.
  unfold force_validation. rewrite Hi.
  by rewrite (run_bind_raise _ _ _ _ _ (run_bind_raise _ _ _ _ _ Hv)).
Qed.

(** An exception of [serializer.data] is the exception of the adapter, at
    the first read as at the second one: nothing is rendered. *)
Theorem data_exception_propagates s items w w1 e :
  model_serializer_mapping s = Value items → items ≠ [] →
  validation_forced s w w1 →
  (∀ w2, data s w1 = (Raise e, w2) →
         render_form_for_serializer is_valid data base s w = (Raise e, w2)) ∧
  (∀ d w2 w3, data s w1 = (Ok d, w2) → d ≠ ∅ → data s w2 = (Raise e, w3) →
              render_form_for_serializer is_valid data base s w = (Raise e, w3)).
Proof.
  intros Hm Hne Hv.
  assert (force_validation is_valid s w = (Ok (), w1)) as Hf.
  { unfold force_validation. destruct (hasattr _); [|by subst].
    destruct Hv as [b Hb]. by rewrite (run_bind_ok _ _ _ _ _ Hb). }
  split.
  - intros w2 Hd. unfold render_form_for_serializer. rewrite Hm. simpl.
    destruct items; [done|]. simpl.
    rewrite (run_bind_ok _ _ _ _ _ Hf).
    by rewrite (run_bind_raise _ _ _ _ _ Hd).
  - intros d w2 w3 Hd Hd0 Hd'. unfold render_form_for_serializer. rewrite Hm. simpl.
    destruct items; [done|]. simpl.
    rewrite (run_bind_ok _ _ _ _ _ Hf), (run_bind_ok _ _ _ _ _ Hd).
    rewrite (truthy_dict_true _ Hd0). unfold render_bound.
    by rewrite (run_bind_raise _ _ _ _ _ Hd').
Qed.


End AdapterFacts.

Section ContextMore.
Context {world arguments : Type}.
Variable is_valid : serializer → M world bool.
Variable data : serializer → M world record.
Variable super_render_form_for_serializer : serializer → M world html.
Variable super_get_context : arguments → M world (gmap string value).

(** [get_context] fails where the base operation fails, and with a
    [KeyError] on [post_form] when the base context has no such entry; in
    both cases the state is the one the base operation left. *)
Theorem get_context_exceptions args w w' :
  (∀ e, super_get_context args w = (Raise e, w') →
        get_context super_get_context args w = (Raise e, w')) ∧
  (∀ ctx, super_get_context args w = (Ok ctx, w') →
          ctx !! "post_form" = None →
          get_context super_get_context args w = (Raise (KeyError "post_form"), w')).
Proof.
  split.
  - intros e Hs. unfold get_context. by rewrite (run_bind_raise _ _ _ _ _ Hs).
  - intros ctx Hs Hp. unfold get_context. rewrite (run_bind_ok _ _ _ _ _ Hs).
    unfold getitem. by rewrite Hp.
Qed.

(** An [is_polymorphic] entry the base context already has is overwritten:
    the returned entry is the tuple test on the post form whatever was
    there, no key is added, and the post form itself is still there. *)
Theorem get_context_overwrites_flag args w ctx w' post_form old :
  super_get_context args w = (Ok ctx, w') →
  ctx !! "post_form" = Some post_form →
  ctx !! "is_polymorphic" = Some old →
  ∃ ctx',
    get_context super_get_context args w = (Ok ctx', w') ∧
    ctx' !! "is_polymorphic" = Some (VBool (isinstance_tuple post_form)) ∧
    ctx' !! "post_form" = Some post_form ∧
    dom ctx' = dom ctx ∧ size ctx' = size ctx.
Proof.
  intros Hs Hp Hold. eexists. split; [by apply get_context_run|].
  assert (dom (<["is_polymorphic" := VBool (isinstance_tuple post_form)]> ctx) = dom ctx)
    as Hdom.
  { apply dom_insert_lookup_L. by eexists. }
  split; [by rewrite lookup_insert_eq|]. split; [by rewrite lookup_insert_ne|].
  split; [done|]. by rewrite <- !size_dom, Hdom.
Qed.

(** When the post form of the base context is what the adapter rendered for
    a serializer, the flag is raised only for a dispatcher, and then the
    post form holds one form per item of its registry; for a serializer
    without a registry (attribute missing, [None] or empty) it is never
    raised. *)
Theorem flag_is_raised_only_for_dispatchers s w0 v w1 args w ctx w' :
  render_form_for_serializer is_valid data super_render_form_for_serializer s w0 = (Ok v, w1) →
  super_get_context args w = (Ok ctx, w') →
  ctx !! "post_form" = Some v →
  ∃ flag,
    get_context super_get_context args w =
      (Ok (<["is_polymorphic" := VBool flag]> ctx), w') ∧
    (flag = true →
     ∃ items forms,
       model_serializer_mapping s = Value items ∧ items ≠ [] ∧
       v = VTuple forms ∧ length forms = length items) ∧
    (truthy_mapping (getattr_or_none (model_serializer_mapping s)) = false →
     flag = false).
Proof.
  intros Hr Hs Hp. exists (isinstance_tuple v).
  split; [by apply get_context_run|].
  assert (isinstance_tuple v = true →
          ∃ items forms,
            model_serializer_mapping s = Value items ∧ items ≠ [] ∧
            v = VTuple forms ∧ length forms = length items) as Hflag.
  { destruct v as [| | | |forms|]; try done. intros _.
    destruct (render_tuple_inv _ _ _ _ _ _ _ Hr)
      as (items & wa & wb & Hm & Hne & _ & _ & Hseq).
    exists items, forms. repeat split; try done.
    by eapply rendered_in_order_length. }
  split; [done|].
  intros Hfalsy. destruct (isinstance_tuple v) eqn:E; [|done].
  destruct (Hflag eq_refl) as (items & forms & Hm & Hne & _).
  rewrite Hm in Hfalsy. simpl in Hfalsy. by destruct items.
Qed.

End ContextMore.

(** ** The further properties on the blog hierarchy *)

Lemma returned_tuple_is_the_registry_witness :
  ∃ items forms,
    fst (blog_render Blog.poly_serializer Blog.blank) = Ok (VTuple forms) ∧
    model_serializer_mapping Blog.poly_serializer = Value items ∧
    length forms = length items ∧ forms ≠ [].
Proof.
  destruct (returned_tuple_is_the_registry Blog.is_valid Blog.data
              Blog.super_render_form_for_serializer Blog.poly_serializer
              Blog.blank _ _ eq_refl)
    as (items & w1 & w2 & Hm & _ & _ & _ & _ & Hlen & Hne).
  eexists items, _. split; [reflexivity|]. split; [exact Hm|]. split; [exact Hlen | exact Hne].
Defined.

(** The unbound dispatcher renders the same under a host whose validation
    would crash: it was handed no raw input. *)
Lemma no_raw_input_no_validation_witness :
  render_form_for_serializer Blog.crashing_is_valid Blog.data
    Blog.super_render_form_for_serializer Blog.poly_serializer =
  blog_render Blog.poly_serializer.
Proof.
  apply (no_raw_input_no_validation Blog.is_valid Blog.data
           Blog.super_render_form_for_serializer Blog.crashing_is_valid
           Blog.poly_serializer).
  reflexivity.
Defined.

Lemma validation_exception_propagates_witness :
  render_form_for_serializer Blog.crashing_is_valid Blog.data
    Blog.super_render_form_for_serializer
    (Blog.poly_data_serializer {[ "name" := VStr "blog" ]}) Blog.blank =
  (Raise (HostError "is_valid"), Blog.World ∅ [0] []).
Proof.
  apply (validation_exception_propagates Blog.crashing_is_valid Blog.data
           Blog.super_render_form_for_serializer
           (Blog.poly_data_serializer {[ "name" := VStr "blog" ]}) Blog.blog_mapping).
  - reflexivity.
  - discriminate.
  - reflexivity.
  - reflexivity.
Defined.

Lemma data_exception_propagates_witness :
  render_form_for_serializer Blog.is_valid Blog.crashing_data
    Blog.super_render_form_for_serializer Blog.poly_serializer Blog.blank =
  (Raise (HostError "data"), Blog.blank).
Proof.
  apply (proj1 (data_exception_propagates Blog.is_valid Blog.crashing_data
                  Blog.super_render_form_for_serializer Blog.poly_serializer
                  Blog.blog_mapping Blog.blank Blog.blank (HostError "data")
                  eq_refl ltac:(discriminate) eq_refl)).
  reflexivity.
Defined.


Lemma get_context_exceptions_witness :
  get_context Blog.bare_get_context Blog.poly_serializer Blog.blank =
  (Raise (KeyError "post_form"), Blog.blank).
Proof.
  apply (proj2 (get_context_exceptions Blog.bare_get_context Blog.poly_serializer
                  Blog.blank Blog.blank) {[ "name" := VStr "Blog List" ]}).
  - reflexivity.
  - reflexivity.
Defined.

Lemma get_context_overwrites_flag_witness :
  ∃ ctx',
    get_context Blog.flagged_get_context Blog.BlogOneSerializer Blog.blank =
      (Ok ctx', Blog.blank) ∧
    ctx' !! "is_polymorphic" = Some (VBool false) ∧
    size ctx' = 2.
Proof.
  destruct (get_context_overwrites_flag Blog.flagged_get_context Blog.BlogOneSerializer
              Blog.blank _ Blog.blank (VStr "name='name'") (VStr "yes")
              eq_refl eq_refl eq_refl)
    as (ctx' & Hrun & Hflag & _ & _ & Hsize).
  exists ctx'. split; [exact Hrun|]. split; [exact Hflag|].
  rewrite Hsize. reflexivity.
Defined.

(** The view of a plain handler: its post form is a string and the flag is
    off. *)
Lemma flag_is_raised_only_for_dispatchers_witness :
  ∃ ctx,
    fst (Blog.super_get_context Blog.BlogOneSerializer Blog.blank) = Ok ctx ∧
    fst (get_context Blog.super_get_context Blog.BlogOneSerializer Blog.blank) =
      Ok (<["is_polymorphic" := VBool false]> ctx).
Proof.
  destruct (flag_is_raised_only_for_dispatchers Blog.is_valid Blog.data
              Blog.super_render_form_for_serializer Blog.super_get_context
              Blog.BlogOneSerializer Blog.blank _ _
              Blog.BlogOneSerializer Blog.blank _ _
              eq_refl eq_refl eq_refl)
    as (flag & Hrun & _ & Hoff).
  eexists. split; [reflexivity|].
  rewrite Hrun. simpl. do 3 f_equal. apply Hoff. reflexivity.
Defined.
